(** * SortSense backend (src/backend/app.py): invoice text heuristic and KPI aggregator

    Shallow embedding of the parts of [src/backend/app.py] that the
    specification is about:
    - the regular expressions of [parse_invoice_text], run by a backtracking
      matcher with Python [re] semantics (first match, ordered alternatives,
      greedy and lazy quantifiers, capture groups, [re.I]);
    - Python [float] values as Rocq's primitive binary64 floats, and [float()]
      of a decimal string as the correctly rounded binary64 value;
    - the in-memory [mock_kpis] dictionary and the four endpoints, with the
      external services (S3, Snowflake, Writer) as an environment that says
      which of them fail.
    - [writer_tip] and the endpoints of the build copy
      [src/backend/.aws-sam/build/ApiFunction/app.py], whose services (OCR,
      the vision model, the [VIEW_KPIS] view) answer from the environment.

    Texts are modelled as ASCII strings: the character classes [\d], [\w],
    [\s] are their ASCII parts. *)

From Stdlib Require Import Bool List Ascii String ZArith Floats Lia.
Import ListNotations.
#[local] Set Warnings "-inexact-float".
Open Scope bool_scope.

(* ================================================================= *)
(** ** Characters *)

Module Chars.

Definition code (c : ascii) : nat := nat_of_ascii c.

(** [\d] *)
Definition is_digit (c : ascii) : bool :=
  (48 <=? code c) && (code c <=? 57).

Definition is_upper (c : ascii) : bool :=
  (65 <=? code c) && (code c <=? 90).

Definition is_lower (c : ascii) : bool :=
  (97 <=? code c) && (code c <=? 122).

(** [[A-Za-z]] *)
Definition is_alpha (c : ascii) : bool := is_upper c || is_lower c.

(** [\w]: letters, digits and underscore *)
Definition is_word (c : ascii) : bool :=
  is_alpha c || is_digit c || Ascii.eqb c "_"%char.

(** [\s], and the characters [str.strip()] removes: [\t\n\v\f\r],
    the separators [\x1c]-[\x1f] and the space. *)
Definition is_space (c : ascii) : bool :=
  ((9 <=? code c) && (code c <=? 13)) || ((28 <=? code c) && (code c <=? 32)).

Definition lower (c : ascii) : ascii :=
  if is_upper c then ascii_of_nat (code c + 32) else c.

Definition upper (c : ascii) : ascii :=
  if is_lower c then ascii_of_nat (code c - 32) else c.

Definition newline : ascii := ascii_of_nat 10.

End Chars.

(* ================================================================= *)
(** ** Python [re]: a backtracking matcher *)

Module Re.
Import Chars.

Inductive regex : Type :=
| REps                                (* the empty pattern *)
| RChar (c : ascii)                   (* a literal character *)
| RClass (p : ascii -> bool)          (* a character class: [\d], [[-/.]], ... *)
| RAny                                (* [.]: any character but a newline *)
| RSeq (r1 r2 : regex)                (* concatenation *)
| RAlt (r1 r2 : regex)                (* [r1|r2] *)
| ROpt (greedy : bool) (r : regex)    (* [r?] (greedy) or [r??] *)
| RStar (greedy : bool) (r : regex)   (* [r*] (greedy) or [r*?] *)
| RGroup (n : nat) (r : regex).       (* capturing group number [n] *)

(** [r+] and [r+?] *)
Definition RPlus (greedy : bool) (r : regex) : regex := RSeq r (RStar greedy r).

(** A literal string. *)
Fixpoint lit (s : list ascii) : regex :=
  match s with
  | [] => REps
  | c :: s' => RSeq (RChar c) (lit s')
  end.

Definition lits (s : string) : regex := lit (list_ascii_of_string s).

(** Captured groups, the latest binding first. *)
Definition caps := list (nat * list ascii).

Fixpoint group (n : nat) (c : caps) : option (list ascii) :=
  match c with
  | [] => None
  | (m, v) :: c' => if Nat.eqb m n then Some v else group n c'
  end.

Definition char_eq (ic : bool) (a x : ascii) : bool :=
  if ic then Ascii.eqb (lower a) (lower x) else Ascii.eqb a x.

Definition class_match (ic : bool) (p : ascii -> bool) (x : ascii) : bool :=
  p x || (ic && (p (lower x) || p (upper x))).

Definition orelse (a : option caps) (b : unit -> option caps) : option caps :=
  match a with
  | Some v => Some v
  | None => b tt
  end.

(** Continuations receive the number of characters consumed since the
    match started (the engine's position), the remaining input and the
    groups. *)
Definition cont := nat -> list ascii -> caps -> option caps.

(** [mt ic r i s c k]: try to match [r] at position [i], the remaining input
    being [s], with groups [c], passing each way of matching, in the order
    Python's engine tries them, to the continuation [k]; the first success
    is returned.  A loop iteration that does not advance the position ends
    the loop, as in [sre]. *)
Fixpoint mt (ic : bool) (r : regex) (i : nat) (s : list ascii) (c : caps)
    (k : cont) {struct r} : option caps :=
  match r with
  | REps => k i s c
  | RChar a =>
      match s with
      | x :: s' => if char_eq ic a x then k (S i) s' c else None
      | [] => None
      end
  | RClass p =>
      match s with
      | x :: s' => if class_match ic p x then k (S i) s' c else None
      | [] => None
      end
  | RAny =>
      match s with
      | x :: s' => if Ascii.eqb x newline then None else k (S i) s' c
      | [] => None
      end
  | RSeq r1 r2 => mt ic r1 i s c (fun i1 s1 c1 => mt ic r2 i1 s1 c1 k)
  | RAlt r1 r2 => orelse (mt ic r1 i s c k) (fun _ => mt ic r2 i s c k)
  | ROpt g r1 =>
      if g then orelse (mt ic r1 i s c k) (fun _ => k i s c)
      else orelse (k i s c) (fun _ => mt ic r1 i s c k)
  | RStar g r1 =>
      let fix loop (fuel : nat) (i0 : nat) (s0 : list ascii) (c0 : caps) : option caps :=
        match fuel with
        | O => k i0 s0 c0
        | S fuel' =>
            let iter _ :=
              mt ic r1 i0 s0 c0 (fun i1 s1 c1 =>
                if i0 <? i1 then loop fuel' i1 s1 c1 else None) in
            if g then orelse (iter tt) (fun _ => k i0 s0 c0)
            else orelse (k i0 s0 c0) iter
        end in
      loop (S (List.length s)) i s c
  | RGroup n r1 =>
      mt ic r1 i s c (fun i1 s1 c1 => k i1 s1 ((n, firstn (i1 - i) s) :: c1))
  end.

(** [re.search]: the first start position at which the pattern matches. *)
Fixpoint search (ic : bool) (r : regex) (s : list ascii) : option caps :=
  match mt ic r 0 s [] (fun _ _ c => Some c) with
  | Some c => Some c
  | None =>
      match s with
      | [] => None
      | _ :: s' => search ic r s'
      end
  end.

(** Text predicates used to state properties of searches. *)

(** [w] is a prefix of [s], comparing characters as the matcher does. *)
Fixpoint prefix_eq (ic : bool) (w s : list ascii) : bool :=
  match w, s with
  | [], _ => true
  | a :: w', x :: s' => char_eq ic a x && prefix_eq ic w' s'
  | _ :: _, [] => false
  end.

(** [s] contains [w], ignoring case. *)
Fixpoint contains_ci (w s : list ascii) : bool :=
  prefix_eq true w s ||
  match s with
  | [] => false
  | _ :: s' => contains_ci w s'
  end.

(** Index of the first occurrence of [w] in [s], ignoring case. *)
Fixpoint find_ci (w s : list ascii) : option nat :=
  if prefix_eq true w s then Some 0
  else match s with
       | [] => None
       | _ :: s' => option_map S (find_ci w s')
       end.

End Re.

(* ================================================================= *)
(** ** Python [float] *)

Module PyFloat.
Import Chars.

(** Value of a string of decimal digits. *)
Fixpoint digits_value (acc : Z) (s : list ascii) : Z :=
  match s with
  | [] => acc
  | d :: s' => digits_value (10 * acc + Z.of_nat (code d - 48)) s'
  end.

(** Split [int.frac] at its first dot. *)
Fixpoint split_dot (s : list ascii) : list ascii * list ascii :=
  match s with
  | [] => ([], [])
  | x :: s' =>
      if Ascii.eqb x "."%char then ([], s')
      else let '(i, f) := split_dot s' in (x :: i, f)
  end.

(** [float(s)] for a string [s] matching [\d+(?:\.\d+)?]: the binary64
    value nearest to [int.frac] (round to nearest, ties to even), i.e. the
    correctly rounded quotient of the integer [intfrac] by [10 ^ length frac]. *)
Definition py_float (s : list ascii) : float :=
  let '(i, f) := split_dot s in
  match digits_value 0 (i ++ f) with
  | Zpos n =>
      SF2Prim (SFdiv prec emax (S754_finite false n 0)
                 (S754_finite false (Nat.iter (List.length f) (Pos.mul 10) 1%positive) 0))
  | _ => 0%float
  end.

(** Truth value of a float in [if x:]: false exactly for [0.0] and [-0.0]. *)
Definition truthy (x : float) : bool := negb (PrimFloat.eqb x 0%float).

End PyFloat.

(* ================================================================= *)
(** ** [parse_invoice_text] *)

Module Invoice.
Import Chars Re PyFloat.

Record invoice_line : Type := {
  line_type : string;
  weight_kg : float;
  cost_usd : float
}.

Record parsed : Type := {
  period : string;
  vendor : string;
  lines : list invoice_line
}.

Definition digit : regex := RClass is_digit.
Definition space : regex := RClass is_space.
Definition word : regex := RClass is_word.

(** [(20\d{2}[-/\.]\d{1,2})] *)
Definition period_re : regex :=
  RGroup 1
    (RSeq (RChar "2") (RSeq (RChar "0") (RSeq digit (RSeq digit
      (RSeq (RClass (fun c => Ascii.eqb c "-" || Ascii.eqb c "/" || Ascii.eqb c "."))
        (RSeq digit (ROpt true digit))))))).

(** [(Invoice|Vendor)[:\s]+([A-Za-z ]+)] *)
Definition vendor_re : regex :=
  RSeq (RGroup 1 (RAlt (lits "Invoice") (lits "Vendor")))
    (RSeq (RPlus true (RClass (fun c => Ascii.eqb c ":" || is_space c)))
       (RGroup 2 (RPlus true (RClass (fun c => is_alpha c || Ascii.eqb c " "))))).

(** [\d+(?:\.\d+)?] *)
Definition number : regex :=
  RSeq (RPlus true digit) (ROpt true (RSeq (RChar ".") (RPlus true digit))).

(** [kind + r".*?(\d+(?:\.\d+)?)\s?(?:kg|tons?)"] *)
Definition kg_re (kind : regex) : regex :=
  RSeq kind (RSeq (RStar false RAny) (RSeq (RGroup 1 number)
    (RSeq (ROpt true space)
       (RAlt (lits "kg") (RSeq (lits "ton") (ROpt true (RChar "s"))))))).

(** [kind + r".*?\$?\s?(\d+(?:\.\d+)?)"] *)
Definition usd_re (kind : regex) : regex :=
  RSeq kind (RSeq (RStar false RAny)
    (RSeq (ROpt true (RChar "$")) (RSeq (ROpt true space) (RGroup 1 number)))).

(** [r"recycl\w+"], [r"landfill"], [r"compost\w+"] *)
Definition recycl_re : regex := RSeq (lits "recycl") (RPlus true word).
Definition landfill_re : regex := lits "landfill".
Definition compost_re : regex := RSeq (lits "compost") (RPlus true word).

(** [float(m.group(1)) if m else 0.0] *)
Definition group1_float (m : option caps) : float :=
  match m with
  | Some c => match group 1 c with Some g => py_float g | None => 0%float end
  | None => 0%float
  end.

(** [grab(kind)], both searches with [re.I]. *)
Definition grab (text : list ascii) (kind : regex) : float * float :=
  let kg := search true (kg_re kind) text in
  let usd := search true (usd_re kind) text in
  (group1_float kg, group1_float usd).

(** [s.strip()] *)
Definition lstrip (s : list ascii) : list ascii :=
  (fix go s := match s with
               | x :: s' => if is_space x then go s' else s
               | [] => []
               end) s.

Definition strip (s : list ascii) : list ascii := rev (lstrip (rev (lstrip s))).

(** [lines.append(...)] under [if w:] *)
Definition emit (w : float) (l : invoice_line) (acc : list invoice_line) :
    list invoice_line :=
  if truthy w then acc ++ [l] else acc.

Definition parse_invoice_text (text : string) : parsed :=
  let t := list_ascii_of_string text in
  let period_m := search false period_re t in
  let vendor_m := search true vendor_re t in
  let '(rkg, rusd) := grab t recycl_re in
  let '(lkg, lusd) := grab t landfill_re in
  let '(ckg, cusd) := grab t compost_re in
  let ls := [] in
  let ls := emit rkg {| line_type := "recycling"; weight_kg := rkg; cost_usd := rusd |} ls in
  let ls := emit ckg {| line_type := "compost"; weight_kg := ckg; cost_usd := cusd |} ls in
  let ls := emit lkg {| line_type := "landfill"; weight_kg := lkg; cost_usd := lusd |} ls in
  {| period :=
       match period_m with
       | Some c => match group 1 c with Some g => string_of_list_ascii g | None => "" end
       | None => "2025-09"
       end;
     vendor :=
       match vendor_m with
       | Some c =>
           match group 2 c with Some g => string_of_list_ascii (strip g) | None => "" end
       | None => "Unknown Hauler"
       end;
     lines := ls |}.

End Invoice.

(* ================================================================= *)
(** ** The endpoints and the in-memory KPI state *)

Module Backend.
Import Invoice.

(** [mock_kpis] *)
Record kpis : Type := {
  recycle_kg : float;
  compost_kg : float;
  landfill_kg : float;
  diversion_rate : float
}.

Definition zero_kpis : kpis :=
  {| recycle_kg := 0; compost_kg := 0; landfill_kg := 0; diversion_rate := 0 |}%float.

(** A waste item of [upload_image]'s mock list. *)
Record item : Type := {
  label : string;
  route : string;
  confidence : float;
  est_weight_kg : float;
  tip : string
}.

Definition mock_items : list item :=
  [ {| label := "plastic_bottle"; route := "recycle"; confidence := 0.95;
       est_weight_kg := 0.05; tip := "Place plastic bottle in the recycle bin." |};
    {| label := "aluminum_can"; route := "recycle"; confidence := 0.88;
       est_weight_kg := 0.02; tip := "Place aluminum can in the recycle bin." |};
    {| label := "pizza_box_greasy"; route := "landfill"; confidence := 0.92;
       est_weight_kg := 0.15; tip := "Place greasy pizza box in the landfill bin." |} ]%float.

(** The mock OCR text of [upload_invoice]. *)
Definition mock_invoice_text : string :=
  "Recycling 15.2 kg $45" ++ String "010"%char
  ("Landfill 8.7 kg $32" ++ String "010"%char
  ("Compost 12.1 kg $28" ++ String "010"%char
   "Period 2025-01 Vendor GreenCity")).

Definition set_recycle (k : kpis) (v : float) : kpis :=
  {| recycle_kg := v; compost_kg := compost_kg k; landfill_kg := landfill_kg k;
     diversion_rate := diversion_rate k |}.
Definition set_compost (k : kpis) (v : float) : kpis :=
  {| recycle_kg := recycle_kg k; compost_kg := v; landfill_kg := landfill_kg k;
     diversion_rate := diversion_rate k |}.
Definition set_landfill (k : kpis) (v : float) : kpis :=
  {| recycle_kg := recycle_kg k; compost_kg := compost_kg k; landfill_kg := v;
     diversion_rate := diversion_rate k |}.
Definition set_rate (k : kpis) (v : float) : kpis :=
  {| recycle_kg := recycle_kg k; compost_kg := compost_kg k; landfill_kg := landfill_kg k;
     diversion_rate := v |}.

(** The loop body of [upload_image]:
    [if route == "recycle": ... elif route == "compost": ... elif route == "landfill": ...] *)
Definition apply_route (k : kpis) (route : string) (weight : float) : kpis :=
  if String.eqb route "recycle" then set_recycle k (recycle_kg k + weight)%float
  else if String.eqb route "compost" then set_compost k (compost_kg k + weight)%float
  else if String.eqb route "landfill" then set_landfill k (landfill_kg k + weight)%float
  else k.

(** The loop body of [upload_invoice], on [line_type]. *)
Definition apply_line_type (k : kpis) (line_type : string) (weight : float) : kpis :=
  if String.eqb line_type "recycling" then set_recycle k (recycle_kg k + weight)%float
  else if String.eqb line_type "compost" then set_compost k (compost_kg k + weight)%float
  else if String.eqb line_type "landfill" then set_landfill k (landfill_kg k + weight)%float
  else k.

(** [# Calculate diversion rate], as written after both loops. *)
Definition total_waste (k : kpis) : float :=
  (recycle_kg k + compost_kg k + landfill_kg k)%float.

Definition recompute_diversion (k : kpis) : kpis :=
  let total := total_waste k in
  if (0 <? total)%float then set_rate k ((recycle_kg k + compost_kg k) / total)%float
  else set_rate k 0%float.

(** Python exceptions: a call either returns or raises. *)
Inductive outcome (A : Type) : Type :=
| Returned (a : A)
| Raised (exn : string).
Arguments Returned {A} a.
Arguments Raised {A} exn.

Definition bind {A B : Type} (m : outcome A) (f : A -> outcome B) : outcome B :=
  match m with
  | Returned a => f a
  | Raised e => Raised e
  end.

Notation "x <- m ;; f" := (bind m (fun x => f)) (at level 61, m at next level, right associativity).

(** [try: m except Exception as e: handler(e)] *)
Definition try_except {A : Type} (m : outcome A) (handler : string -> outcome A) : outcome A :=
  match m with
  | Returned a => Returned a
  | Raised e => handler e
  end.

(** The external services: which calls fail, and the Writer settings. *)
Record env : Type := {
  s3_fails : bool;            (* s3.put_object *)
  snowflake_fails : bool;     (* sf() / cursor.execute *)
  textract_fails : bool;      (* OCR; not called by app.py *)
  bedrock_fails : bool;       (* vision model; not called by app.py *)
  writer_api_key : string;    (* WRITER_API_KEY *)
  writer_fails : bool;        (* requests.post to the Writer API, or its reply *)
  writer_reply : string       (* the reply's content when it succeeds *)
}.

Definition s3_put_object (e : env) : outcome unit :=
  if s3_fails e then Raised "S3 error" else Returned tt.

(** [insert_waste_events(rows)]: after connecting it reads [r["source"]],
    a key the mock items of [upload_image] do not have. *)
Definition insert_waste_events (e : env) (rows : list item) : outcome unit :=
  if snowflake_fails e then Raised "Snowflake error"
  else match rows with
       | [] => Returned tt
       | _ :: _ => Raised "KeyError: 'source'"
       end.

Definition insert_invoice_lines (e : env) (p : string) (v : string)
    (ls : list invoice_line) : outcome unit :=
  if snowflake_fails e then Raised "Snowflake error" else Returned tt.

(** The summary of [writer_kpi_summary]: the local template
    [f"Diversion {dr:.1f}%. ..."] with [dr = diversion_rate * 100], or the
    Writer API's text. *)
Inductive summary : Type :=
| LocalTemplate (dr : float)
| WriterText (s : string).

Definition writer_kpi_summary (e : env) (k : kpis) : outcome summary :=
  if String.eqb (writer_api_key e) "" then Returned (LocalTemplate (diversion_rate k * 100)%float)
  else if writer_fails e then Raised "requests error"
  else Returned (WriterText (writer_reply e)).

Inductive response : Type :=
| ImageResponse (ok : bool) (items : list item)
| InvoiceResponse (ok : bool) (p : parsed)
| KpisResponse (data : kpis) (s : summary)
| ResetResponse (ok : bool) (message : string).

Definition upload_image (e : env) (st : kpis) (img : list Byte.byte) :
    outcome (response * kpis) :=
  _ <- try_except (s3_put_object e) (fun _ => Returned tt) ;;
  let items := mock_items in
  let st1 := fold_left (fun k it => apply_route k (route it) (est_weight_kg it)) items st in
  let st2 := recompute_diversion st1 in
  _ <- try_except (insert_waste_events e items) (fun _ => Returned tt) ;;
  Returned (ImageResponse true items, st2).

Definition upload_invoice (e : env) (st : kpis) (pdf : list Byte.byte) :
    outcome (response * kpis) :=
  _ <- try_except (s3_put_object e) (fun _ => Returned tt) ;;
  let text := mock_invoice_text in
  let p := parse_invoice_text text in
  let st1 := fold_left (fun k l => apply_line_type k (line_type l) (weight_kg l)) (lines p) st in
  let st2 := recompute_diversion st1 in
  _ <- try_except (insert_invoice_lines e (period p) (vendor p) (lines p)) (fun _ => Returned tt) ;;
  Returned (InvoiceResponse true p, st2).

Definition get_kpis (e : env) (st : kpis) : outcome (response * kpis) :=
  let data := st in
  s <- writer_kpi_summary e data ;;
  Returned (KpisResponse data s, st).

Definition reset_kpis (e : env) (st : kpis) : outcome (response * kpis) :=
  Returned (ResetResponse true "KPIs reset to zero", zero_kpis).

Inductive request : Type :=
| UploadImage (img : list Byte.byte)
| UploadInvoice (pdf : list Byte.byte)
| GetKpis
| ResetKpis.

Definition handle (e : env) (st : kpis) (r : request) : outcome (response * kpis) :=
  match r with
  | UploadImage img => upload_image e st img
  | UploadInvoice pdf => upload_invoice e st pdf
  | GetKpis => get_kpis e st
  | ResetKpis => reset_kpis e st
  end.

(** The parsed payload of an invoice upload. *)
Definition invoice_payload (o : outcome (response * kpis)) : option parsed :=
  match o with
  | Returned (InvoiceResponse _ p, _) => Some p
  | _ => None
  end.

(** The diversion-rate invariant of [mock_kpis]. *)
Definition diversion_inv (k : kpis) : Prop :=
  ((0 <? recycle_kg k + compost_kg k + landfill_kg k)%float = true ->
   diversion_rate k = ((recycle_kg k + compost_kg k) /
                       (recycle_kg k + compost_kg k + landfill_kg k))%float) /\
  ((recycle_kg k + compost_kg k + landfill_kg k =? 0)%float = true ->
   diversion_rate k = 0%float).

(** An environment in which every service is up and no Writer key is set,
    and one in which a Writer key is set but the Writer API fails. *)
Definition env_local : env :=
  {| s3_fails := true; snowflake_fails := true; textract_fails := true;
     bedrock_fails := true; writer_api_key := ""; writer_fails := false;
     writer_reply := "" |}.

Definition env_writer_down : env :=
  {| s3_fails := false; snowflake_fails := false; textract_fails := false;
     bedrock_fails := false; writer_api_key := "sk-demo"; writer_fails := true;
     writer_reply := "" |}.

End Backend.

(* ================================================================= *)
(** ** The language of a pattern, and request sequences *)

(** The strings a pattern describes, in the usual sense of regular
    languages; [ic] is [re.I].  The matcher's results are explained by it:
    whatever [mt] consumes, and captures, belongs to it. *)
Module Lang.
Import Chars Re.

Inductive lang (ic : bool) : regex -> list ascii -> Prop :=
| L_eps : lang ic REps []
| L_char a x : char_eq ic a x = true -> lang ic (RChar a) [x]
| L_class p x : class_match ic p x = true -> lang ic (RClass p) [x]
| L_any x : Ascii.eqb x newline = false -> lang ic RAny [x]
| L_seq r1 r2 w1 w2 : lang ic r1 w1 -> lang ic r2 w2 -> lang ic (RSeq r1 r2) (w1 ++ w2)
| L_alt1 r1 r2 w : lang ic r1 w -> lang ic (RAlt r1 r2) w
| L_alt2 r1 r2 w : lang ic r2 w -> lang ic (RAlt r1 r2) w
| L_opt_none g r : lang ic (ROpt g r) []
| L_opt_some g r w : lang ic r w -> lang ic (ROpt g r) w
| L_star_nil g r : lang ic (RStar g r) []
| L_star_cons g r w1 w2 :
    lang ic r w1 -> lang ic (RStar g r) w2 -> lang ic (RStar g r) (w1 ++ w2)
| L_group n r w : lang ic r w -> lang ic (RGroup n r) w.

End Lang.

Module Shapes.
Import Chars Re.

(** The separators of [[-/\.]]. *)
Definition is_sep (c : ascii) : bool :=
  Ascii.eqb c "-" || Ascii.eqb c "/" || Ascii.eqb c ".".

(** [20DD<sep>D] or [20DD<sep>DD]: the strings [period_re]'s group 1 can
    capture. *)
Definition is_period_string (s : list ascii) : bool :=
  match s with
  | y1 :: y2 :: d1 :: d2 :: sep :: m :: rest =>
      Ascii.eqb y1 "2" && Ascii.eqb y2 "0" && is_digit d1 && is_digit d2 &&
      is_sep sep && is_digit m &&
      match rest with
      | [] => true
      | [m2] => is_digit m2
      | _ => false
      end
  | _ => false
  end.



End Shapes.

Module Requests.
Import Backend.

(** The state [mock_kpis] after one request; a request that raises leaves it
    as it was (no endpoint mutates it before raising). *)
Definition step (e : env) (st : kpis) (r : request) : kpis :=
  match handle e st r with
  | Returned (_, st') => st'
  | Raised _ => st
  end.

Definition run (e : env) (st : kpis) (rs : list request) : kpis := fold_left (step e) rs st.

End Requests.

(* ================================================================= *)
(** ** [writer_tip], and the endpoints of the build copy

    [src/backend/.aws-sam/build/ApiFunction/app.py] shares the helpers of
    [app.py] ([writer_tip], [writer_kpi_summary], [parse_invoice_text], the
    inserts) but its endpoints call the services without mocks: OCR with a
    sample-text fallback, the vision model, and the [VIEW_KPIS] view. *)

Module BuildCopy.
Import Chars Invoice Backend.
Local Open Scope string_scope.

(** [label.replace('_',' ')] *)
Definition replace_underscore (s : string) : string :=
  string_of_list_ascii
    (map (fun c => if Ascii.eqb c "_"%char then " "%char else c) (list_ascii_of_string s)).

(** [writer_tip(label, route)]: the local template without a key, else the
    Writer API's reply, stripped. *)
Definition writer_tip (e : env) (label route : string) : outcome string :=
  if String.eqb (writer_api_key e) "" then
    Returned ("Place " ++ replace_underscore label ++ " in the " ++ route ++ " bin.")
  else if writer_fails e then Raised "requests error"
  else Returned (string_of_list_ascii (strip (list_ascii_of_string (writer_reply e)))).

(** An entry of the vision model's JSON array. *)
Record vitem : Type := {
  v_label : string;
  v_route : string;
  v_confidence : float;
  v_est_weight_kg : float
}.

(** [vision_classify]'s fallback when the reply holds no JSON array. *)
Definition vision_fallback : list vitem :=
  [ {| v_label := "plastic_bottle"; v_route := "recycle"; v_confidence := 0.9;
       v_est_weight_kg := 0.03 |} ]%float.

(** What the services of the build copy answer, beside [env]: the LINE and
    other blocks of the OCR reply ([BlockType], [Text]), the JSON array the
    vision reply decodes to ([None] when [json.loads] of the bracketed part
    fails), and the columns and first row of [VIEW_KPIS] ([None] for an
    empty view; [None] cells are SQL NULLs). *)
Record build_env : Type := {
  base : env;
  ocr_blocks : list (string * string);
  vision_json : option (list vitem);
  view_cols : list string;
  view_row : option (list (option float))
}.

(** [vision_classify(img)]: [invoke_model] and the reading of its body are
    not guarded; only the array parse is. *)
Definition vision_classify (be : build_env) (img : list Byte.byte) : outcome (list vitem) :=
  if bedrock_fails (base be) then Raised "Bedrock error"
  else Returned (match vision_json be with Some l => l | None => vision_fallback end).

(** An item after [it.update({"source": "image", "s3_key": key, "tip": ...})]. *)
Record bitem : Type := {
  b_label : string;
  b_route : string;
  b_confidence : float;
  b_est_weight_kg : float;
  b_source : string;
  b_s3_key : string;
  b_tip : string
}.

Fixpoint map_outcome {A B : Type} (f : A -> outcome B) (l : list A) : outcome (list B) :=
  match l with
  | [] => Returned []
  | x :: l' => y <- f x ;; ys <- map_outcome f l' ;; Returned (y :: ys)
  end.

(** [insert_waste_events(items)] on the tagged items: they have a
    ["source"], so only the connection can fail. *)
Definition insert_tagged_events (e : env) (rows : list bitem) : outcome unit :=
  if snowflake_fails e then Raised "Snowflake error" else Returned tt.

Definition upload_image (be : build_env) (key : string) (img : list Byte.byte) :
    outcome (list bitem) :=
  _ <- s3_put_object (base be) ;;
  items <- vision_classify be img ;;
  tagged <- map_outcome (fun it =>
              t <- writer_tip (base be) (v_label it) (v_route it) ;;
              Returned {| b_label := v_label it; b_route := v_route it;
                          b_confidence := v_confidence it;
                          b_est_weight_kg := v_est_weight_kg it;
                          b_source := "image"; b_s3_key := key; b_tip := t |}) items ;;
  _ <- insert_tagged_events (base be) tagged ;;
  Returned tagged.

(** ["\n".join(lines)] *)
Fixpoint join_nl (ls : list string) : string :=
  match ls with
  | [] => ""
  | [x] => x
  | x :: ls' => x ++ String newline (join_nl ls')
  end.

(** The sample text used when OCR fails. *)
Definition sample_invoice_text : string :=
  "Recycling 520 kg $180" ++ String newline
  ("Landfill 260 kg $210" ++ String newline
  ("Compost 140 kg $90" ++ String newline
   "Period 2025-09 Vendor GreenCity")).

Definition ocr_text (be : build_env) : string :=
  if textract_fails (base be) then sample_invoice_text
  else join_nl (map snd (filter (fun b => String.eqb (fst b) "LINE") (ocr_blocks be))).

Definition upload_invoice (be : build_env) (pdf : list Byte.byte) : outcome parsed :=
  _ <- s3_put_object (base be) ;;
  let text := ocr_text be in
  let p := parse_invoice_text text in
  _ <- insert_invoice_lines (base be) (period p) (vendor p) (lines p) ;;
  Returned p.

(** A Python dict with insertion order: assigning an existing key keeps its
    place. *)
Definition dict := list (string * option float).

Fixpoint dict_set (k : string) (v : option float) (d : dict) : dict :=
  match d with
  | [] => [(k, v)]
  | (k', v') :: d' => if String.eqb k' k then (k, v) :: d' else (k', v') :: dict_set k v d'
  end.

Fixpoint dict_get (k : string) (d : dict) : option float :=
  match d with
  | [] => None
  | (k', v) :: d' => if String.eqb k' k then v else dict_get k d'
  end.

(** [dict(zip(cols, row))] *)
Definition dict_of_zip (cols : list string) (row : list (option float)) : dict :=
  fold_left (fun d kv => dict_set (fst kv) (snd kv) d) (combine cols row) [].

Definition lower_str (s : string) : string :=
  string_of_list_ascii (map lower (list_ascii_of_string s)).

(** [float(data.get(k) or 0)]: [None] and zeros are falsy. *)
Definition coalesce (v : option float) : float :=
  match v with
  | Some x => if PyFloat.truthy x then x else 0%float
  | None => 0%float
  end.

Definition kpi_fields : list string := ["recycle_kg"; "compost_kg"; "landfill_kg"; "diversion_rate"].

(** [for k in (...): data[k] = float(data.get(k) or 0)] *)
Definition coalesce_loop (ks : list string) (d : dict) : dict :=
  fold_left (fun d k => dict_set k (Some (coalesce (dict_get k d))) d) ks d.

Definition zero_data : dict :=
  [("recycle_kg", Some 0%float); ("compost_kg", Some 0%float);
   ("landfill_kg", Some 0%float); ("diversion_rate", Some 0%float)].

(** The [try] block of [kpis()]: the query, [fetchone()] (whose [None]
    makes [zip] raise), and the coalescing loop. *)
Definition query_kpis (be : build_env) : outcome dict :=
  if snowflake_fails (base be) then Raised "Snowflake error"
  else match view_row be with
       | None => Raised "TypeError: 'NoneType' object is not iterable"
       | Some row =>
           let data := dict_of_zip (map lower_str (view_cols be)) row in
           Returned (coalesce_loop kpi_fields data)
       end.

Definition data_kpis (d : dict) : kpis :=
  {| recycle_kg := coalesce (dict_get "recycle_kg" d);
     compost_kg := coalesce (dict_get "compost_kg" d);
     landfill_kg := coalesce (dict_get "landfill_kg" d);
     diversion_rate := coalesce (dict_get "diversion_rate" d) |}.

(** [kpis()]; [writer_kpi_summary] only reads ["diversion_rate"] of the
    dict, a float after the loop. *)
Definition get_kpis (be : build_env) : outcome (dict * summary) :=
  data <- try_except (query_kpis be) (fun _ => Returned zero_data) ;;
  s <- writer_kpi_summary (base be) (data_kpis data) ;;
  Returned (data, s).

(** Build-copy settings: every service down; every service up with no
    Writer key, an empty vision reply and an empty view; the same with a
    view whose only column, [RECYCLE_KG], is NULL. *)
Definition env_up : env :=
  {| s3_fails := false; snowflake_fails := false; textract_fails := false;
     bedrock_fails := false; writer_api_key := ""; writer_fails := false;
     writer_reply := "" |}.

Definition be_down : build_env :=
  {| base := env_local; ocr_blocks := []; vision_json := None; view_cols := [];
     view_row := None |}.


Definition be_null_recycle : build_env :=
  {| base := env_up; ocr_blocks := []; vision_json := None; view_cols := ["RECYCLE_KG"];
     view_row := Some [None] |}.

End BuildCopy.

(* ================================================================= *)
(** ** Properties of the matcher *)

Module ReFacts.
Import Chars Re.

Lemma orelse_some (a : option caps) (b : unit -> option caps) x :
  orelse a b = Some x -> a = Some x \/ b tt = Some x.
Proof. destruct a; simpl; auto. Qed.

(** A literal only matches where it is a prefix of the input. *)
Lemma mt_lit_prefix ic w : forall i s c k x,
  mt ic (lit w) i s c k = Some x -> prefix_eq ic w s = true.
Proof.
  induction w as [| a w IH]; intros i s c k x H; [reflexivity |].
  simpl in H. destruct s as [| y s]; [discriminate |].
  simpl. destruct (char_eq ic a y); [| discriminate].
  simpl. eapply IH; exact H.
Qed.

(** [search] returns the first match: at a position where the pattern
    matches, all earlier positions failing. *)
Lemma search_some ic r s x :
  search ic r s = Some x ->
  exists p s', s = p ++ s' /\ mt ic r 0 s' [] (fun _ _ c => Some c) = Some x.
Proof.
  induction s as [| y s IH]; simpl; intro H.
  - exists [], []. destruct (mt ic r 0 [] [] _) eqn:E; [injection H as ->|]; auto; discriminate.
  - destruct (mt ic r 0 (y :: s) [] _) eqn:E.
    + injection H as ->. exists [], (y :: s). auto.
    + destruct (IH H) as (p & s' & -> & Hm). exists (y :: p), s'. auto.
Qed.

Lemma prefix_contains w p s :
  prefix_eq true w s = true -> contains_ci w (p ++ s) = true.
Proof.
  intro H. induction p as [| y p IH]; simpl.
  - destruct s; simpl in *; rewrite H; reflexivity.
  - rewrite IH. apply orb_true_r.
Qed.

(** If the first occurrence of [w] in [p ++ rest] starts [rest], and the
    pattern [r] only matches where [w] does, searching [p ++ rest] is
    searching [rest]. *)
Lemma search_skip ic r w
  (Hw : forall s x, mt ic r 0 s [] (fun _ _ c => Some c) = Some x -> prefix_eq true w s = true) :
  forall p rest, find_ci w (p ++ rest) = Some (List.length p) ->
  search ic r (p ++ rest) = search ic r rest.
Proof.
  induction p as [| y p IH]; intros rest Hf; [reflexivity |].
  simpl in Hf |- *.
  destruct (prefix_eq true w (y :: p ++ rest)) eqn:Ep; [discriminate |].
  destruct (mt ic r 0 (y :: p ++ rest) [] _) eqn:Em.
  - apply Hw in Em. congruence.
  - apply IH. destruct (find_ci w (p ++ rest)); simpl in Hf; congruence.
Qed.

End ReFacts.

(* ================================================================= *)
(** ** Properties of [parse_invoice_text] *)

Module InvoiceFacts.
Import Chars Re PyFloat Invoice ReFacts.
Local Open Scope string_scope.

(** The three [if w: lines.append(...)] statements, in order. *)
Definition line_if (w : float) (l : invoice_line) : list invoice_line :=
  if truthy w then [l] else [].

Lemma parse_lines_eq (text : string) :
  let t := list_ascii_of_string text in
  lines (parse_invoice_text text) = (
    line_if (fst (grab t recycl_re))
      {| line_type := "recycling"; weight_kg := fst (grab t recycl_re);
         cost_usd := snd (grab t recycl_re) |} ++
    line_if (fst (grab t compost_re))
      {| line_type := "compost"; weight_kg := fst (grab t compost_re);
         cost_usd := snd (grab t compost_re) |} ++
    line_if (fst (grab t landfill_re))
      {| line_type := "landfill"; weight_kg := fst (grab t landfill_re);
         cost_usd := snd (grab t landfill_re) |})%list.
Proof.
  unfold parse_invoice_text. cbv zeta.
  destruct (grab (list_ascii_of_string text) recycl_re) as [rkg rusd].
  destruct (grab (list_ascii_of_string text) landfill_re) as [lkg lusd].
  destruct (grab (list_ascii_of_string text) compost_re) as [ckg cusd].
  unfold emit, line_if; simpl.
  destruct (truthy rkg), (truthy ckg), (truthy lkg); reflexivity.
Qed.

Lemma parse_period_eq (text : string) :
  period (parse_invoice_text text) =
    match search false period_re (list_ascii_of_string text) with
    | Some c => match group 1 c with Some g => string_of_list_ascii g | None => "" end
    | None => "2025-09"
    end.
Proof.
  unfold parse_invoice_text. cbv zeta.
  destruct (grab (list_ascii_of_string text) recycl_re).
  destruct (grab (list_ascii_of_string text) landfill_re).
  destruct (grab (list_ascii_of_string text) compost_re).
  reflexivity.
Qed.

Lemma parse_vendor_eq (text : string) :
  vendor (parse_invoice_text text) =
    match search true vendor_re (list_ascii_of_string text) with
    | Some c =>
        match group 2 c with Some g => string_of_list_ascii (strip g) | None => "" end
    | None => "Unknown Hauler"
    end.
Proof.
  unfold parse_invoice_text. cbv zeta.
  destruct (grab (list_ascii_of_string text) recycl_re).
  destruct (grab (list_ascii_of_string text) landfill_re).
  destruct (grab (list_ascii_of_string text) compost_re).
  reflexivity.
Qed.

Lemma in_line_if_type w l ty :
  In ty (map line_type (line_if w l)) <-> truthy w = true /\ ty = line_type l.
Proof.
  unfold line_if. destruct (truthy w); simpl; intuition congruence.
Qed.

(** The vendor pattern only matches where [Invoice] or [Vendor] starts. *)
Lemma vendor_mt_prefix s x :
  mt true vendor_re 0 s [] (fun _ _ c => Some c) = Some x ->
  prefix_eq true (list_ascii_of_string "Invoice") s = true \/
  prefix_eq true (list_ascii_of_string "Vendor") s = true.
Proof.
  unfold vendor_re. cbn [mt]. intro H.
  apply orelse_some in H as [H | H].
  - left. exact (mt_lit_prefix _ _ _ _ _ _ _ H).
  - right. exact (mt_lit_prefix _ _ _ _ _ _ _ H).
Qed.

Lemma string_app_list (a b : string) :
  list_ascii_of_string (a ++ b) = (list_ascii_of_string a ++ list_ascii_of_string b)%list.
Proof. induction a as [| x a IH]; simpl; [reflexivity | now rewrite IH]. Qed.

Lemma string_length_list (a : string) :
  String.length a = List.length (list_ascii_of_string a).
Proof. induction a as [| x a IH]; simpl; congruence. Qed.

(** The recycling weight pattern only matches where [recycl] starts. *)
Lemma recycl_kg_prefix s x :
  mt true (kg_re recycl_re) 0 s [] (fun _ _ c => Some c) = Some x ->
  prefix_eq true (list_ascii_of_string "recycl") s = true.
Proof.
  unfold kg_re, recycl_re. cbn [mt]. intro H.
  exact (mt_lit_prefix _ _ _ _ _ _ _ H).
Qed.

(** When the first [recycl] of the text starts [rest] and the weight
    pattern matches there, the first line is the recycling line with that
    weight. *)
Lemma recycling_first_line (p rest : list ascii) c :
  find_ci (list_ascii_of_string "recycl") (p ++ rest) = Some (List.length p) ->
  mt true (kg_re recycl_re) 0 rest [] (fun _ _ c => Some c) = Some c ->
  truthy (group1_float (Some c)) = true ->
  exists l ls,
    lines (parse_invoice_text (string_of_list_ascii (p ++ rest))) = l :: ls /\
    line_type l = "recycling" /\ weight_kg l = group1_float (Some c).
Proof.
  intros Hf Hm Ht.
  rewrite parse_lines_eq. cbv zeta.
  rewrite list_ascii_of_string_of_list_ascii.
  unfold grab; cbn [fst snd].
  rewrite (search_skip true (kg_re recycl_re) _ recycl_kg_prefix p rest Hf).
  assert (Hs : search true (kg_re recycl_re) rest = Some c)
    by (destruct rest; cbn [search]; rewrite Hm; reflexivity).
  rewrite Hs. unfold line_if at 1. rewrite Ht.
  eexists _, _. split; [reflexivity | split; reflexivity].
Qed.

(** The same, for a text [p ++ w ++ s] given as strings. *)
Lemma recycling_first_line_str (p w s : string) c :
  find_ci (list_ascii_of_string "recycl") (list_ascii_of_string (p ++ w ++ s)) =
    Some (String.length p) ->
  mt true (kg_re recycl_re) 0 (list_ascii_of_string w ++ list_ascii_of_string s) []
    (fun _ _ c => Some c) = Some c ->
  truthy (group1_float (Some c)) = true ->
  exists l ls,
    lines (parse_invoice_text (p ++ w ++ s)) = l :: ls /\
    line_type l = "recycling" /\ weight_kg l = group1_float (Some c).
Proof.
  intros Hf Hm Ht.
  rewrite !string_app_list, string_length_list in Hf.
  rewrite <- (string_of_list_ascii_of_string (p ++ w ++ s)), !string_app_list.
  exact (recycling_first_line _ _ c Hf Hm Ht).
Qed.

End InvoiceFacts.

(* ================================================================= *)
(** ** Properties of the KPI state *)

Module BackendFacts.
Import Invoice Backend.

(** Python's [x == 0] excludes [0 < x]. *)
Lemma float_eq0_not_pos (x : float) : (x =? 0)%float = true -> (0 <? x)%float = false.
Proof.
  rewrite FloatAxioms.eqb_spec, FloatAxioms.ltb_spec.
  replace (Prim2SF 0) with (S754_zero false) by reflexivity.
  destruct (Prim2SF x) as [[] | [] | | [] m e]; cbv; congruence.
Qed.

(** [recompute_diversion] establishes the invariant, whatever the totals. *)
Lemma recompute_diversion_inv (k : kpis) : diversion_inv (recompute_diversion k).
Proof.
  unfold recompute_diversion, total_waste, diversion_inv.
  destruct (0 <? recycle_kg k + compost_kg k + landfill_kg k)%float eqn:E; simpl.
  - split; intro H; [reflexivity |]. apply float_eq0_not_pos in H. congruence.
  - split; intro H; [congruence | reflexivity].
Qed.

Lemma zero_kpis_inv : diversion_inv zero_kpis.
Proof. unfold diversion_inv. split; intro H; [vm_compute in H; discriminate | reflexivity]. Qed.

Lemma try_ignore (m : outcome unit) : try_except m (fun _ => Returned tt) = Returned tt.
Proof. destruct m as [[] |]; reflexivity. Qed.

(** [upload_invoice] always parses the mock text and returns [ok: True]. *)
Lemma upload_invoice_mock (e : env) (st : kpis) (pdf : list Byte.byte) :
  exists st', upload_invoice e st pdf =
    Returned (InvoiceResponse true (parse_invoice_text mock_invoice_text), st') /\
    diversion_inv st'.
Proof.
  unfold upload_invoice. rewrite !try_ignore. cbn [bind].
  eexists. split; [reflexivity | apply recompute_diversion_inv].
Qed.

Lemma upload_image_ok (e : env) (st : kpis) (img : list Byte.byte) :
  exists st', upload_image e st img = Returned (ImageResponse true mock_items, st') /\
    diversion_inv st'.
Proof.
  unfold upload_image. rewrite !try_ignore. cbn [bind].
  eexists. split; [reflexivity | apply recompute_diversion_inv].
Qed.

End BackendFacts.

(* ================================================================= *)
(** ** The claims *)

Module Claims.
Import Chars Re PyFloat Invoice ReFacts InvoiceFacts Backend BackendFacts.
Local Open Scope string_scope.

(** C1, as stated, fails: in ["Recycling 1 kg Recycling 520 kg $180"] the
    first recycling mention gives the weight and the cost, so no line has
    weight_kg 520.0 and cost_usd 180.0. *)
Lemma C1_counterexample :
  ~ (exists l, In l (lines (parse_invoice_text "Recycling 1 kg Recycling 520 kg $180")) /\
       line_type l = "recycling" /\ weight_kg l = 520%float /\ cost_usd l = 180%float).
Proof.
  intros (l & Hin & _ & Hw & _).
  vm_compute in Hin. destruct Hin as [<- | []].
  apply (f_equal (fun z => PrimFloat.eqb z 520%float)) in Hw.
  vm_compute in Hw. discriminate.
Qed.

(** C1 (amended): for every text [p ++ "Recycling 520 kg $180" ++ s] whose
    first case-insensitive "recycl" is the one of "Recycling 520 kg $180",
    the first line is the recycling line and its weight_kg is 520.0. *)
Theorem C1_recycling_520_weight (p s : string) :
  find_ci (list_ascii_of_string "recycl")
    (list_ascii_of_string (p ++ "Recycling 520 kg $180" ++ s)) = Some (String.length p) ->
  exists l ls,
    lines (parse_invoice_text (p ++ "Recycling 520 kg $180" ++ s)) = l :: ls /\
    line_type l = "recycling" /\ weight_kg l = 520%float.
Proof.
  intro Hf.
  destruct (recycling_first_line_str p "Recycling 520 kg $180" s
              [(1, list_ascii_of_string "520")] Hf) as (l & ls & H1 & H2 & H3).
  - vm_compute. reflexivity.
  - vm_compute. reflexivity.
  - exists l, ls. rewrite H3. repeat split; [exact H1 | exact H2].
Qed.

Lemma C1_witness :
  find_ci (list_ascii_of_string "recycl")
    (list_ascii_of_string ("Vendor GreenCity " ++ "Recycling 520 kg $180" ++ " Landfill 9 kg"))
    = Some (String.length "Vendor GreenCity ") /\
  exists l ls,
    lines (parse_invoice_text ("Vendor GreenCity " ++ "Recycling 520 kg $180" ++ " Landfill 9 kg"))
      = l :: ls /\ line_type l = "recycling" /\ weight_kg l = 520%float.
Proof.
  split; [vm_compute; reflexivity |].
  apply C1_recycling_520_weight. vm_compute. reflexivity.
Defined.

(** C2: on the spec's end-to-end text (the mock text of [upload_invoice]),
    the parser returns two lines, not three: the cost pattern captures the
    weight ("15.2", "8.7") rather than the dollar amount, and [compost\w+]
    does not match the word "Compost". *)
Theorem C2_mock_text_parse :
  parse_invoice_text mock_invoice_text =
  {| period := "2025-01"; vendor := "GreenCity";
     lines := [ {| line_type := "recycling"; weight_kg := 15.2; cost_usd := 15.2 |};
                {| line_type := "landfill"; weight_kg := 8.7; cost_usd := 8.7 |} ] |}.
Proof. vm_compute. reflexivity. Qed.

(** C3, as stated, fails: with a Writer key configured and the Writer API
    failing, [GET /kpis] raises. *)
Lemma C3_counterexample : ~ (forall e st r, exists x, handle e st r = Returned x).
Proof.
  intro H. destruct (H env_writer_down zero_kpis GetKpis) as [x Hx].
  vm_compute in Hx. discriminate.
Qed.

(** C3 (amended): whatever fails, both uploads and the reset return
    [ok: True]; [GET /kpis] returns exactly when no Writer key is configured
    or the Writer call succeeds. *)
Theorem C3_endpoint_outcomes (e : env) (st : kpis) :
  (forall img, exists items st',
     handle e st (UploadImage img) = Returned (ImageResponse true items, st')) /\
  (forall pdf, exists p st',
     handle e st (UploadInvoice pdf) = Returned (InvoiceResponse true p, st')) /\
  handle e st ResetKpis = Returned (ResetResponse true "KPIs reset to zero", zero_kpis) /\
  ((exists x, handle e st GetKpis = Returned x) <->
   (writer_api_key e = "" \/ writer_fails e = false)).
Proof.
  split; [| split; [| split]].
  - intro img. destruct (upload_image_ok e st img) as (st' & H & _).
    exists mock_items, st'. exact H.
  - intro pdf. destruct (upload_invoice_mock e st pdf) as (st' & H & _).
    exists (parse_invoice_text mock_invoice_text), st'. exact H.
  - reflexivity.
  - cbn [handle]. unfold get_kpis, writer_kpi_summary.
    destruct (String.eqb (writer_api_key e) "") eqn:Ek.
    + apply String.eqb_eq in Ek. split; [intros _; left; exact Ek | intros _].
      eexists. reflexivity.
    + apply String.eqb_neq in Ek.
      destruct (writer_fails e) eqn:Ew; cbn [bind].
      * split; [intros [x Hx]; discriminate | intros [H | H]; congruence].
      * split; [intros _; right; reflexivity | intros _; eexists; reflexivity].
Qed.

(** C4, as stated, fails: the parsed payload never depends on the uploaded
    document. *)
Lemma C4_counterexample :
  ~ (exists e st d1 d2, d1 <> d2 /\
       invoice_payload (handle e st (UploadInvoice d1)) <>
       invoice_payload (handle e st (UploadInvoice d2))).
Proof.
  intros (e & st & d1 & d2 & _ & H). apply H. cbn [handle].
  destruct (upload_invoice_mock e st d1) as (s1 & -> & _).
  destruct (upload_invoice_mock e st d2) as (s2 & -> & _).
  reflexivity.
Qed.

(** C4 (amended): [upload_invoice] runs no OCR; for every environment,
    state and document it parses the fixed mock text. *)
Theorem C4_invoice_parses_mock_text (e : env) (st : kpis) (pdf : list Byte.byte) :
  exists st', handle e st (UploadInvoice pdf) =
    Returned (InvoiceResponse true (parse_invoice_text mock_invoice_text), st').
Proof.
  destruct (upload_invoice_mock e st pdf) as (st' & H & _). exists st'. exact H.
Qed.

(** C5: every mutation (image upload, invoice upload, reset) returns, and
    the state it leaves has diversion_rate = (r + c) / (r + c + l) when
    0 < r + c + l, and 0.0 when r + c + l == 0. *)
Theorem C5_diversion_invariant (e : env) (st : kpis) (r : request) :
  r <> GetKpis ->
  exists resp st', handle e st r = Returned (resp, st') /\ diversion_inv st'.
Proof.
  intro Hr. destruct r as [img | pdf | | ]; cbn [handle].
  - destruct (upload_image_ok e st img) as (st' & H & Hi). eauto.
  - destruct (upload_invoice_mock e st pdf) as (st' & H & Hi). eauto.
  - contradiction.
  - eexists _, _. split; [reflexivity | exact zero_kpis_inv].
Qed.

Lemma C5_witness :
  UploadInvoice [] <> GetKpis /\
  exists resp st', handle env_local zero_kpis (UploadInvoice []) = Returned (resp, st') /\
    diversion_inv st'.
Proof. split; [discriminate | apply C5_diversion_invariant; discriminate]. Defined.

(** C6: a category has a line exactly when its extracted weight is
    non-zero; in particular a category whose weight pattern does not match
    (a cost alone) has no line. *)
Theorem C6_line_iff_weight (text : string) :
  let t := list_ascii_of_string text in
  let types := map line_type (lines (parse_invoice_text text)) in
  (In "recycling" types <-> truthy (fst (grab t recycl_re)) = true) /\
  (In "compost" types <-> truthy (fst (grab t compost_re)) = true) /\
  (In "landfill" types <-> truthy (fst (grab t landfill_re)) = true) /\
  (search true (kg_re recycl_re) t = None -> ~ In "recycling" types) /\
  (search true (kg_re compost_re) t = None -> ~ In "compost" types) /\
  (search true (kg_re landfill_re) t = None -> ~ In "landfill" types).
Proof.
  pose proof (parse_lines_eq text) as E. cbv zeta in E |- *. rewrite E.
  rewrite !map_app, !in_app_iff, !in_line_if_type. cbn [line_type].
  unfold grab; cbn [fst].
  repeat split; intros; repeat match goal with
    | H : search _ _ _ = None |- _ => rewrite H in *; clear H
    end;
    try (intuition discriminate).
Qed.

(** C7: the lines are in the order recycling, compost, landfill, each
    present or absent. *)
Theorem C7_line_order (text : string) :
  exists b1 b2 b3 : bool,
    map line_type (lines (parse_invoice_text text)) =
    ((if b1 then ["recycling"] else []) ++ (if b2 then ["compost"] else []) ++
     (if b3 then ["landfill"] else []))%list.
Proof.
  pose proof (parse_lines_eq text) as E. cbv zeta in E. rewrite E.
  unfold line_if.
  exists (truthy (fst (grab (list_ascii_of_string text) recycl_re))),
         (truthy (fst (grab (list_ascii_of_string text) compost_re))),
         (truthy (fst (grab (list_ascii_of_string text) landfill_re))).
  destruct (truthy (fst (grab (list_ascii_of_string text) recycl_re))),
           (truthy (fst (grab (list_ascii_of_string text) compost_re))),
           (truthy (fst (grab (list_ascii_of_string text) landfill_re))); reflexivity.
Qed.

(** C8: no year-month match gives the period "2025-09"; no
    case-insensitive "Invoice" or "Vendor" gives the vendor "Unknown Hauler". *)
Theorem C8_fallback_period_vendor (text : string) :
  (search false period_re (list_ascii_of_string text) = None ->
   period (parse_invoice_text text) = "2025-09") /\
  (contains_ci (list_ascii_of_string "Invoice") (list_ascii_of_string text) = false ->
   contains_ci (list_ascii_of_string "Vendor") (list_ascii_of_string text) = false ->
   vendor (parse_invoice_text text) = "Unknown Hauler").
Proof.
  split.
  - intro H. rewrite parse_period_eq, H. reflexivity.
  - intros Hi Hv. rewrite parse_vendor_eq.
    destruct (search true vendor_re (list_ascii_of_string text)) as [x |] eqn:Es;
      [| reflexivity].
    exfalso. apply search_some in Es as (p & s' & Ht & Hm).
    apply vendor_mt_prefix in Hm as [Hm | Hm];
      apply (prefix_contains _ p) in Hm; rewrite <- Ht in Hm; congruence.
Qed.

(** C9: a route or line type other than recycle, recycling, compost and
    landfill leaves the totals unchanged, in both update loops. *)
Theorem C9_unknown_route_ignored (k : kpis) (r : string) (w : float) :
  r <> "recycle" -> r <> "recycling" -> r <> "compost" -> r <> "landfill" ->
  apply_route k r w = k /\ apply_line_type k r w = k.
Proof.
  intros H1 H2 H3 H4. unfold apply_route, apply_line_type.
  apply String.eqb_neq in H1, H2, H3, H4. rewrite H1, H2, H3, H4.
  split; reflexivity.
Qed.

Lemma C9_witness :
  ("paper" <> "recycle" /\ "paper" <> "recycling" /\ "paper" <> "compost" /\
   "paper" <> "landfill") /\
  apply_route zero_kpis "paper" 1%float = zero_kpis /\
  apply_line_type zero_kpis "paper" 1%float = zero_kpis.
Proof.
  split; [repeat split; discriminate |].
  apply C9_unknown_route_ignored; discriminate.
Defined.

(** C10: a line's weight_kg is [float] of the number the weight pattern
    captured, whatever unit (kg, ton, tons) followed it: "Recycling 2 tons"
    gives 2.0. *)
Theorem C10_ton_weight_unconverted :
  (forall text l, In l (lines (parse_invoice_text text)) ->
     let t := list_ascii_of_string text in
     (line_type l = "recycling" /\ weight_kg l = group1_float (search true (kg_re recycl_re) t)) \/
     (line_type l = "compost" /\ weight_kg l = group1_float (search true (kg_re compost_re) t)) \/
     (line_type l = "landfill" /\ weight_kg l = group1_float (search true (kg_re landfill_re) t))) /\
  (forall p s : string,
     find_ci (list_ascii_of_string "recycl")
       (list_ascii_of_string (p ++ "Recycling 2 tons" ++ s)) = Some (String.length p) ->
     exists l ls,
       lines (parse_invoice_text (p ++ "Recycling 2 tons" ++ s)) = l :: ls /\
       line_type l = "recycling" /\ weight_kg l = 2%float).
Proof.
  split.
  - intros text l Hin. cbv zeta.
    pose proof (parse_lines_eq text) as E. cbv zeta in E. rewrite E in Hin.
    unfold line_if, grab in Hin; cbn [fst snd] in Hin.
    rewrite !in_app_iff in Hin.
    destruct Hin as [Hin | [Hin | Hin]];
      match type of Hin with
      | In _ (if ?b then _ else _) => destruct b; [| contradiction]
      end;
      destruct Hin as [<- | []]; cbn [line_type weight_kg]; auto.
  - intros p s Hf.
    destruct (recycling_first_line_str p "Recycling 2 tons" s
                [(1, list_ascii_of_string "2")] Hf) as (l & ls & H1 & H2 & H3).
    + vm_compute. reflexivity.
    + vm_compute. reflexivity.
    + exists l, ls. rewrite H3. repeat split; [exact H1 | exact H2].
Qed.

End Claims.

(* ================================================================= *)
(** ** Soundness of the matcher, and the shapes of captured text *)

Module LangFacts.
Import Chars Re Lang ReFacts.

(** What [mt] passes to its continuation is a split of the input whose first
    part belongs to the pattern's language, the position advanced by its
    length. *)
Lemma mt_sound ic r : forall i s c k x,
  mt ic r i s c k = Some x ->
  exists w s' c', s = w ++ s' /\ lang ic r w /\ k (i + List.length w) s' c' = Some x.
Proof.
  induction r as [| a | p | | r1 IH1 r2 IH2 | r1 IH1 r2 IH2 | g r1 IH | g r1 IH | n r1 IH];
    intros i s c k x H; [cbn [mt] in H .. | | cbn [mt] in H].
  - exists [], s, c. rewrite Nat.add_0_r. repeat split; auto. constructor.
  - destruct s as [| y s]; [discriminate |].
    destruct (char_eq ic a y) eqn:E; [| discriminate].
    exists [y], s, c. rewrite Nat.add_1_r. repeat split; auto. now constructor.
  - destruct s as [| y s]; [discriminate |].
    destruct (class_match ic p y) eqn:E; [| discriminate].
    exists [y], s, c. rewrite Nat.add_1_r. repeat split; auto. now constructor.
  - destruct s as [| y s]; [discriminate |].
    destruct (Ascii.eqb y newline) eqn:E; [discriminate |].
    exists [y], s, c. rewrite Nat.add_1_r. repeat split; auto. now constructor.
  - destruct (IH1 _ _ _ _ _ H) as (w1 & s1 & c1 & -> & L1 & H1).
    destruct (IH2 _ _ _ _ _ H1) as (w2 & s2 & c2 & -> & L2 & H2).
    exists (w1 ++ w2), s2, c2. rewrite length_app, Nat.add_assoc, app_assoc.
    repeat split; auto. now constructor.
  - apply orelse_some in H as [H | H].
    + destruct (IH1 _ _ _ _ _ H) as (w & s' & c' & -> & L & H').
      exists w, s', c'. repeat split; auto. now apply L_alt1.
    + destruct (IH2 _ _ _ _ _ H) as (w & s' & c' & -> & L & H').
      exists w, s', c'. repeat split; auto. now apply L_alt2.
  - assert (Hn : k i s c = Some x ->
             exists w s' c', s = w ++ s' /\ lang ic (ROpt g r1) w /\
                             k (i + List.length w) s' c' = Some x).
    { intro H'. exists [], s, c. rewrite Nat.add_0_r. repeat split; auto. constructor. }
    assert (Hs : mt ic r1 i s c k = Some x ->
             exists w s' c', s = w ++ s' /\ lang ic (ROpt g r1) w /\
                             k (i + List.length w) s' c' = Some x).
    { intro H'. destruct (IH _ _ _ _ _ H') as (w & s' & c' & -> & L & H'').
      exists w, s', c'. repeat split; auto. now constructor. }
    destruct g; apply orelse_some in H as [H | H]; auto.
  - change ((fix loop (fuel : nat) (i0 : nat) (s0 : list ascii) (c0 : caps) : option caps :=
                      match fuel with
                      | O => k i0 s0 c0
                      | S fuel' =>
                          let iter _ :=
                            mt ic r1 i0 s0 c0 (fun i1 s1 c1 =>
                              if i0 <? i1 then loop fuel' i1 s1 c1 else None) in
                          if g then orelse (iter tt) (fun _ => k i0 s0 c0)
                          else orelse (k i0 s0 c0) iter
                      end) (S (List.length s)) i s c = Some x) in H.
    revert H. generalize (S (List.length s)) as fuel. intro fuel.
    revert i s c x. induction fuel as [| fuel IHf]; intros i s c x H.
    + cbn beta iota in H.
      exists [], s, c. rewrite Nat.add_0_r. repeat split; auto. constructor.
    + cbn beta iota zeta in H.
      assert (Hn : k i s c = Some x ->
               exists w s' c', s = w ++ s' /\ lang ic (RStar g r1) w /\
                               k (i + List.length w) s' c' = Some x).
      { intro H'. exists [], s, c. rewrite Nat.add_0_r. repeat split; auto. constructor. }
      assert (Hi : forall y, y = x ->
               mt ic r1 i s c (fun i1 s1 c1 =>
                 if i <? i1 then
                   (fix loop (fuel : nat) (i0 : nat) (s0 : list ascii) (c0 : caps) : option caps :=
                      match fuel with
                      | O => k i0 s0 c0
                      | S fuel' =>
                          let iter _ :=
                            mt ic r1 i0 s0 c0 (fun i1 s1 c1 =>
                              if i0 <? i1 then loop fuel' i1 s1 c1 else None) in
                          if g then orelse (iter tt) (fun _ => k i0 s0 c0)
                          else orelse (k i0 s0 c0) iter
                      end) fuel i1 s1 c1
                 else None) = Some y ->
               exists w s' c', s = w ++ s' /\ lang ic (RStar g r1) w /\
                               k (i + List.length w) s' c' = Some x).
      { intros y -> H'. destruct (IH _ _ _ _ _ H') as (w1 & s1 & c1 & -> & L1 & H1).
        destruct (i <? i + List.length w1); [| discriminate].
        destruct (IHf _ _ _ _ H1) as (w2 & s2 & c2 & -> & L2 & H2).
        exists (w1 ++ w2), s2, c2. rewrite length_app, Nat.add_assoc, app_assoc.
        repeat split; auto. now constructor. }
      destruct g; apply orelse_some in H as [H | H]; auto; eapply Hi; eauto.
  - destruct (IH _ _ _ _ _ H) as (w & s' & c' & -> & L & H').
    exists w, s', ((n, firstn (i + List.length w - i) (w ++ s')) :: c').
    repeat split; auto. now constructor.
Qed.

End LangFacts.

(* ================================================================= *)
(** ** What [parse_invoice_text] can return, and the compost total *)

Module ExtraFacts.
Import Chars Re PyFloat Invoice Backend Lang Shapes Requests ReFacts InvoiceFacts
  BackendFacts LangFacts.

Lemma mt_group ic n r i s c k :
  mt ic (RGroup n r) i s c k =
  mt ic r i s c (fun i1 s1 c1 => k i1 s1 ((n, firstn (i1 - i) s) :: c1)).
Proof. reflexivity. Qed.

Lemma firstn_length_app (w s : list ascii) : firstn (List.length w) (w ++ s) = w.
Proof. induction w as [| a w IH]; simpl; [reflexivity | now rewrite IH]. Qed.

(** What a group that ends the pattern captures is what it consumed. *)
Lemma mt_group_last ic n r i s c x :
  mt ic (RGroup n r) i s c (fun _ _ c => Some c) = Some x ->
  exists w s' c', s = w ++ s' /\ lang ic r w /\ x = (n, w) :: c'.
Proof.
  rewrite mt_group. intro H.
  destruct (mt_sound _ _ _ _ _ _ _ H) as (w & s' & c' & -> & L & H').
  injection H' as <-. exists w, s', c'. repeat split; auto.
  replace (i + List.length w - i) with (List.length w) by lia.
  now rewrite firstn_length_app.
Qed.

Lemma lang_star_class ic g p w :
  lang ic (RStar g (RClass p)) w -> Forall (fun x => class_match ic p x = true) w.
Proof.
  intro H. remember (RStar g (RClass p)) as r eqn:Er.
  induction H; inversion Er; subst; auto.
  inversion H; subst. constructor; auto.
Qed.

Lemma lang_plus_class ic g p w :
  lang ic (RPlus g (RClass p)) w ->
  exists y w', w = y :: w' /\ Forall (fun x => class_match ic p x = true) w.
Proof.
  intro H. inversion H as [| | | | r1 r2 w1 w2 H1 H2 | | | | | | | ]; subst.
  inversion H1; subst. exists x, w2. split; [reflexivity |].
  constructor; [assumption | exact (lang_star_class _ _ _ _ H2)].
Qed.


Ltac lang_inv :=
  repeat match goal with
  | H : lang _ (RSeq _ _) _ |- _ => inversion H; subst; clear H
  | H : lang _ (RChar _) _ |- _ => inversion H; subst; clear H
  | H : lang _ (RClass _) _ |- _ => inversion H; subst; clear H
  | H : lang _ (ROpt _ _) _ |- _ => inversion H; subst; clear H
  end.

(** The strings group 1 of [period_re] describes. *)
Lemma period_lang_shape w :
  lang false (RSeq (RChar "2") (RSeq (RChar "0") (RSeq digit (RSeq digit
      (RSeq (RClass (fun c => Ascii.eqb c "-" || Ascii.eqb c "/" || Ascii.eqb c "."))
        (RSeq digit (ROpt true digit))))))) w ->
  is_period_string w = true.
Proof.
  unfold digit. intro H. lang_inv; unfold char_eq, class_match in *;
    repeat match goal with H : Ascii.eqb _ _ = true |- _ => apply Ascii.eqb_eq in H; subst end;
    rewrite ?orb_false_r in *; simpl; unfold is_sep;
    repeat match goal with H : ?b = true |- _ => rewrite H end; reflexivity.
Qed.









Lemma compost_recompute k : compost_kg (recompute_diversion k) = compost_kg k.
Proof. unfold recompute_diversion. destruct (0 <? total_waste k)%float; reflexivity. Qed.

Lemma fold_route_compost (its : list item) k :
  ~ In "compost"%string (map route its) ->
  compost_kg (fold_left (fun k it => apply_route k (route it) (est_weight_kg it)) its k) =
  compost_kg k.
Proof.
  revert k. induction its as [| it its IH]; intros k H; [reflexivity |].
  simpl in H |- *. rewrite IH by tauto. unfold apply_route.
  destruct (String.eqb (route it) "recycle"%string); [reflexivity |].
  destruct (String.eqb (route it) "compost") eqn:E.
  - apply String.eqb_eq in E. tauto.
  - destruct (String.eqb (route it) "landfill"); reflexivity.
Qed.

Lemma fold_line_compost (ls : list invoice_line) k :
  ~ In "compost"%string (map line_type ls) ->
  compost_kg (fold_left (fun k l => apply_line_type k (line_type l) (weight_kg l)) ls k) =
  compost_kg k.
Proof.
  revert k. induction ls as [| l ls IH]; intros k H; [reflexivity |].
  simpl in H |- *. rewrite IH by tauto. unfold apply_line_type.
  destruct (String.eqb (line_type l) "recycling"); [reflexivity |].
  destruct (String.eqb (line_type l) "compost") eqn:E.
  - apply String.eqb_eq in E. tauto.
  - destruct (String.eqb (line_type l) "landfill"); reflexivity.
Qed.

Lemma mock_line_types :
  map line_type (lines (parse_invoice_text mock_invoice_text)) = ["recycling"; "landfill"]%string.
Proof. vm_compute. reflexivity. Qed.

(** Only a reset changes [compost_kg]. *)
Lemma step_compost e st r :
  compost_kg (step e st r) = match r with ResetKpis => 0%float | _ => compost_kg st end.
Proof.
  unfold step, handle. destruct r as [img | pdf | |].
  - unfold upload_image. rewrite !try_ignore. cbn [bind].
    rewrite compost_recompute, fold_route_compost; [reflexivity |].
    simpl. intuition discriminate.
  - unfold upload_invoice. rewrite !try_ignore. cbn [bind].
    rewrite compost_recompute, fold_line_compost; [reflexivity |].
    rewrite mock_line_types. simpl. intuition discriminate.
  - unfold get_kpis. destruct (writer_kpi_summary e st); reflexivity.
  - reflexivity.
Qed.

(** Every request keeps the diversion-rate invariant. *)
Lemma step_inv e st r : diversion_inv st -> diversion_inv (step e st r).
Proof.
  intro H. unfold step. destruct r as [img | pdf | |]; cbn [handle].
  - destruct (upload_image_ok e st img) as (st' & -> & Hi). exact Hi.
  - destruct (upload_invoice_mock e st pdf) as (st' & -> & Hi). exact Hi.
  - unfold get_kpis. destruct (writer_kpi_summary e st); exact H.
  - exact zero_kpis_inv.
Qed.

End ExtraFacts.

(* ================================================================= *)
(** ** Properties of the build copy's helpers *)

Module BuildFacts.
Import Chars Re PyFloat Invoice Backend Lang ReFacts InvoiceFacts LangFacts ExtraFacts
  BuildCopy.

Lemma class_digit x : class_match true is_digit x = true -> is_digit x = true.
Proof. destruct x as [[] [] [] [] [] [] [] []]; vm_compute; auto. Qed.

(** A weight pattern only matches where the text has a digit. *)
Lemma kg_search_digit kind t x :
  search true (kg_re kind) t = Some x -> exists y, In y t /\ is_digit y = true.
Proof.
  intro E. apply search_some in E as (p & s & -> & Hm).
  destruct (mt_sound _ _ _ _ _ _ _ Hm) as (w & s' & c' & -> & L & _).
  unfold kg_re, number, digit in L.
  inversion L as [| | | | r1 r2 wk w1 _ L1 | | | | | | | ]; subst; clear L.
  inversion L1 as [| | | | r1 r2 ws w2 _ L2 | | | | | | | ]; subst; clear L1.
  inversion L2 as [| | | | r1 r2 w3 w4 L3 _ | | | | | | | ]; subst; clear L2.
  inversion L3 as [| | | | | | | | | | | n r w L4]; subst; clear L3.
  inversion L4 as [| | | | r1 r2 w5 w6 L5 _ | | | | | | | ]; subst; clear L4.
  apply lang_plus_class in L5 as (y & w' & -> & Hy).
  inversion Hy as [| ? ? Hy1 _]; subst.
  exists y. split; [| exact (class_digit _ Hy1)].
  apply in_or_app; right. apply in_or_app; left.
  apply in_or_app; right. apply in_or_app; right. apply in_or_app; left.
  apply in_or_app; left. left. reflexivity.
Qed.

Lemma line_if_zero (l : invoice_line) : line_if 0%float l = [].
Proof. reflexivity. Qed.


Lemma dict_get_set_same k v d : dict_get k (dict_set k v d) = v.
Proof.
  induction d as [| [k' v'] d IH]; simpl.
  - rewrite String.eqb_refl. reflexivity.
  - destruct (String.eqb k' k) eqn:E; simpl; [now rewrite String.eqb_refl | now rewrite E].
Qed.

Lemma dict_get_set_other k k' v d :
  k' <> k -> dict_get k (dict_set k' v d) = dict_get k d.
Proof.
  intro Hk. apply String.eqb_neq in Hk.
  induction d as [| [k'' v''] d IH]; simpl.
  - now rewrite Hk.
  - destruct (String.eqb k'' k') eqn:E; simpl.
    + apply String.eqb_eq in E. subst k''. now rewrite Hk.
    + destruct (String.eqb k'' k); [reflexivity | exact IH].
Qed.

Lemma coalesce_loop_keeps k ks d x :
  dict_get k d = Some x -> exists y, dict_get k (coalesce_loop ks d) = Some y.
Proof.
  revert d x. induction ks as [| k' ks IH]; intros d x H; [now exists x |].
  unfold coalesce_loop; simpl. fold (coalesce_loop ks (dict_set k' (Some (coalesce (dict_get k' d))) d)).
  destruct (String.eqb_spec k' k) as [-> | Hne].
  - eapply IH. apply dict_get_set_same.
  - eapply IH. rewrite dict_get_set_other by exact Hne. exact H.
Qed.

Lemma coalesce_loop_sets k ks d :
  In k ks -> exists y, dict_get k (coalesce_loop ks d) = Some y.
Proof.
  revert d. induction ks as [| k' ks IH]; intros d H; [destruct H |].
  unfold coalesce_loop; simpl. fold (coalesce_loop ks (dict_set k' (Some (coalesce (dict_get k' d))) d)).
  destruct (String.eqb_spec k' k) as [-> | Hne].
  - eapply coalesce_loop_keeps. apply dict_get_set_same.
  - apply IH. destruct H as [H | H]; [contradiction | exact H].
Qed.

End BuildFacts.

(* ================================================================= *)
(** ** Further properties of the code *)

Module Extras.
Import Chars Re PyFloat Invoice Backend Lang Shapes Requests ReFacts InvoiceFacts
  BackendFacts LangFacts ExtraFacts BuildFacts.

(** X1: the period [parse_invoice_text] returns is always [20DD<sep>D] or
    [20DD<sep>DD] with [<sep>] one of [-], [/], [.]: what group 1 of the
    period pattern captures, or the fallback ["2025-09"]. *)
Theorem X1_period_format (text : string) :
  is_period_string (list_ascii_of_string (period (parse_invoice_text text))) = true.
Proof.
  rewrite parse_period_eq.
  destruct (search false period_re (list_ascii_of_string text)) as [x |] eqn:E;
    [| reflexivity].
  apply search_some in E as (p & s & _ & Hm). unfold period_re in Hm.
  apply mt_group_last in Hm as (w & s' & c' & _ & L & ->).
  cbn [group Nat.eqb]. rewrite list_ascii_of_string_of_list_ascii.
  exact (period_lang_shape w L).
Qed.






(** X5: with no Writer key, a reset followed by GET /kpis returns all four
    totals at 0.0 and the local summary for a 0.0% diversion, whatever the
    state before. *)
Theorem X5_reset_then_read (e : env) (st : kpis) :
  writer_api_key e = ""%string ->
  handle e (step e st ResetKpis) GetKpis =
    Returned (KpisResponse zero_kpis (LocalTemplate 0%float), zero_kpis).
Proof.
  intro Hk. unfold step, handle, reset_kpis, get_kpis, writer_kpi_summary.
  rewrite Hk. reflexivity.
Qed.

Lemma X5_witness :
  writer_api_key env_local = ""%string /\
  handle env_local (step env_local zero_kpis ResetKpis) GetKpis =
    Returned (KpisResponse zero_kpis (LocalTemplate 0%float), zero_kpis).
Proof. split; [reflexivity | apply X5_reset_then_read; reflexivity]. Defined.

(** X6: no request but a reset changes [compost_kg]: the image upload only
    routes its items to recycle and landfill, and the invoice upload's
    parse has no compost line. *)
Theorem X6_only_reset_changes_compost (e : env) (st : kpis) (r : request) :
  r <> ResetKpis -> compost_kg (step e st r) = compost_kg st.
Proof.
  intro Hr. rewrite step_compost. destruct r; congruence.
Qed.

Lemma X6_witness :
  UploadInvoice [] <> ResetKpis /\
  compost_kg (step env_writer_down zero_kpis (UploadInvoice [])) = compost_kg zero_kpis.
Proof. split; [discriminate | apply X6_only_reset_changes_compost; discriminate]. Defined.

(** X7: from the initial [mock_kpis], whatever requests are made,
    [compost_kg] stays 0.0. *)
Theorem X7_compost_always_zero (e : env) (rs : list request) :
  compost_kg (run e zero_kpis rs) = 0%float.
Proof.
  unfold run. assert (H0 : compost_kg zero_kpis = 0%float) by reflexivity.
  revert H0. generalize zero_kpis. induction rs as [| r rs IH]; intros st H; [exact H |].
  simpl. apply IH. rewrite step_compost. destruct r; auto.
Qed.

(** X8: from the initial [mock_kpis], whatever requests are made and
    whichever services fail, the state satisfies the diversion-rate
    invariant. *)
Theorem X8_reachable_diversion_inv (e : env) (rs : list request) :
  diversion_inv (run e zero_kpis rs).
Proof.
  unfold run. generalize zero_kpis_inv. generalize zero_kpis.
  induction rs as [| r rs IH]; intros st H; [exact H |].
  simpl. apply IH. apply step_inv. exact H.
Qed.

(** X9: a text with no digit yields no invoice line: every weight pattern
    needs the digits of [\d+]. *)
Theorem X9_no_digit_no_lines (text : string) :
  forallb (fun c => negb (is_digit c)) (list_ascii_of_string text) = true ->
  lines (parse_invoice_text text) = [].
Proof.
  intro Hd. rewrite forallb_forall in Hd.
  assert (Hn : forall kind, search true (kg_re kind) (list_ascii_of_string text) = None).
  { intro kind. destruct (search true (kg_re kind) _) as [x |] eqn:E; [| reflexivity].
    apply kg_search_digit in E as (y & Hy & Hdy). apply Hd in Hy.
    rewrite Hdy in Hy. discriminate. }
  rewrite parse_lines_eq. cbv zeta. unfold grab; cbn [fst snd].
  rewrite !Hn. cbn [group1_float]. rewrite !line_if_zero. reflexivity.
Qed.

Lemma X9_witness :
  forallb (fun c => negb (is_digit c)) (list_ascii_of_string "Recycling: none this month") = true /\
  lines (parse_invoice_text "Recycling: none this month") = [].
Proof. split; [vm_compute; reflexivity | apply X9_no_digit_no_lines; vm_compute; reflexivity]. Defined.

(** X10: without a Writer key, [writer_tip] returns the local sentence, and
    it shows no underscore when the route has none: those of the label are
    replaced by spaces. *)
Theorem X10_writer_tip_no_underscore (e : env) (label route : string) :
  writer_api_key e = ""%string ->
  ~ In "_"%char (list_ascii_of_string route) ->
  exists s, BuildCopy.writer_tip e label route = Returned s /\
    ~ In "_"%char (list_ascii_of_string s).
Proof.
  intros Hk Hr. unfold BuildCopy.writer_tip. rewrite Hk. cbn [String.eqb].
  eexists. split; [reflexivity |].
  rewrite !string_app_list, !in_app_iff. unfold BuildCopy.replace_underscore.
  rewrite list_ascii_of_string_of_list_ascii.
  intros [H | [H | [H | [H | H]]]];
    [simpl in H; intuition discriminate | | simpl in H; intuition discriminate
    | exact (Hr H) | simpl in H; intuition discriminate].
  apply in_map_iff in H as (c & Hc & _).
  destruct (Ascii.eqb c "_") eqn:E; [discriminate |]. subst c. discriminate.
Qed.

Lemma X10_witness :
  writer_api_key env_local = ""%string /\
  ~ In "_"%char (list_ascii_of_string "landfill") /\
  exists s, BuildCopy.writer_tip env_local "pizza_box_greasy" "landfill" = Returned s /\
    ~ In "_"%char (list_ascii_of_string s).
Proof.
  split; [reflexivity |]. split; [simpl; intuition discriminate |].
  apply X10_writer_tip_no_underscore; [reflexivity | simpl; intuition discriminate].
Defined.

(** X11: the build copy's [upload_invoice] raises exactly when the S3 upload
    or the Snowflake insert fails; an OCR failure alone never makes it
    raise (the sample text is parsed instead). *)
Theorem X11_build_invoice_raises_iff (be : BuildCopy.build_env) (pdf : list Byte.byte) :
  (exists m, BuildCopy.upload_invoice be pdf = Raised m) <->
  s3_fails (BuildCopy.base be) || snowflake_fails (BuildCopy.base be) = true.
Proof.
  unfold BuildCopy.upload_invoice, s3_put_object, insert_invoice_lines.
  destruct (s3_fails (BuildCopy.base be)); cbn [bind orb].
  - split; [reflexivity | eauto].
  - destruct (snowflake_fails (BuildCopy.base be)); cbn [bind].
    + split; [reflexivity | eauto].
    + split; [intros [m H]; discriminate | discriminate].
Qed.

(** X12: when the Snowflake query fails or the view has no row, the build
    copy's GET /kpis reports the four totals as 0.0, with the summary of
    all-zero KPIs. *)
Theorem X12_build_kpis_fallback (be : BuildCopy.build_env) :
  snowflake_fails (BuildCopy.base be) = true \/ BuildCopy.view_row be = None ->
  BuildCopy.get_kpis be =
    (s <- writer_kpi_summary (BuildCopy.base be) zero_kpis ;;
     Returned (BuildCopy.zero_data, s)).
Proof.
  intro H. unfold BuildCopy.get_kpis, BuildCopy.query_kpis.
  destruct H as [H | H]; rewrite H; cbn [try_except bind]; [reflexivity |].
  destruct (snowflake_fails (BuildCopy.base be)); reflexivity.
Qed.

Lemma X12_witness :
  (snowflake_fails (BuildCopy.base BuildCopy.be_down) = true \/ BuildCopy.view_row BuildCopy.be_down = None) /\
  BuildCopy.get_kpis BuildCopy.be_down =
    (s <- writer_kpi_summary (BuildCopy.base BuildCopy.be_down) zero_kpis ;;
     Returned (BuildCopy.zero_data, s)).
Proof.
  split; [left; reflexivity |].
  apply X12_build_kpis_fallback. left. reflexivity.
Defined.

(** X13: whenever the build copy's GET /kpis returns, its data hold a float
    (never [None]) for each of [recycle_kg], [compost_kg], [landfill_kg] and
    [diversion_rate], whatever columns and NULLs the view has. *)
Theorem X13_build_kpis_fields_set (be : BuildCopy.build_env) d s :
  BuildCopy.get_kpis be = Returned (d, s) ->
  forall k, In k BuildCopy.kpi_fields -> exists x, BuildCopy.dict_get k d = Some x.
Proof.
  intros H k Hk. unfold BuildCopy.get_kpis in H.
  destruct (try_except (BuildCopy.query_kpis be) (fun _ => Returned BuildCopy.zero_data))
    as [d0 |] eqn:Eq; cbn [bind] in H; [| discriminate].
  destruct (writer_kpi_summary (BuildCopy.base be) (BuildCopy.data_kpis d0));
    cbn [bind] in H; [| discriminate].
  injection H as <- _.
  unfold BuildCopy.query_kpis in Eq.
  destruct (snowflake_fails (BuildCopy.base be)); cbn [try_except] in Eq.
  - injection Eq as <-. simpl in Hk.
    destruct Hk as [<- | [<- | [<- | [<- | []]]]]; eexists; reflexivity.
  - destruct (BuildCopy.view_row be); cbn [try_except] in Eq.
    + injection Eq as <-. exact (coalesce_loop_sets k BuildCopy.kpi_fields _ Hk).
    + injection Eq as <-. simpl in Hk.
      destruct Hk as [<- | [<- | [<- | [<- | []]]]]; eexists; reflexivity.
Qed.

Lemma X13_witness :
  BuildCopy.get_kpis BuildCopy.be_null_recycle = Returned (BuildCopy.zero_data, LocalTemplate 0%float) /\
  forall k, In k BuildCopy.kpi_fields -> exists x, BuildCopy.dict_get k BuildCopy.zero_data = Some x.
Proof.
  assert (H : BuildCopy.get_kpis BuildCopy.be_null_recycle = Returned (BuildCopy.zero_data, LocalTemplate 0%float))
    by (vm_compute; reflexivity).
  split; [exact H | exact (X13_build_kpis_fields_set BuildCopy.be_null_recycle _ _ H)].
Defined.



(** X15: the build copy's image upload raises whenever S3, the vision model
    or Snowflake fails (none of these calls is guarded there). *)
Theorem X15_build_image_raises (be : BuildCopy.build_env) (key : string) (img : list Byte.byte) :
  s3_fails (BuildCopy.base be) || bedrock_fails (BuildCopy.base be) ||
    snowflake_fails (BuildCopy.base be) = true ->
  exists m, BuildCopy.upload_image be key img = Raised m.
Proof.
  intro H. unfold BuildCopy.upload_image, s3_put_object, BuildCopy.vision_classify,
    BuildCopy.insert_tagged_events.
  destruct (s3_fails (BuildCopy.base be)); cbn [bind]; [eauto |].
  destruct (bedrock_fails (BuildCopy.base be)); cbn [bind]; [eauto |].
  cbn [orb] in H. rewrite H.
  destruct (BuildCopy.map_outcome _ _); cbn [bind]; eauto.
Qed.

Lemma X15_witness :
  s3_fails (BuildCopy.base BuildCopy.be_down) || bedrock_fails (BuildCopy.base BuildCopy.be_down) ||
    snowflake_fails (BuildCopy.base BuildCopy.be_down) = true /\
  exists m, BuildCopy.upload_image BuildCopy.be_down "waste/0_a.jpg" [] = Raised m.
Proof. split; [reflexivity | apply X15_build_image_raises; reflexivity]. Defined.

End Extras.
